(** * depdiscover: dependency graph visualisation (visualize_deps.py)

    A shallow embedding of [src/visualize_deps.py]: the colour
    classification [get_security_color], the build loop of [visualize],
    and the load / save / render pipeline with its early returns and
    exception handlers, followed by the properties of the specification. *)

From Stdlib Require Import Ascii String.
From stdpp Require Import base strings list gmap.

Local Open Scope string_scope.

(** ** Input document

    The JSON shape read by the script.  A key that may be absent is an
    [option], so that [d.get(key, default)] is [default dflt (key d)].
    A finding is a JSON object with open-ended keys, of which only ["id"]
    is read: it is kept as a finite map. *)

Abbreviation Finding := (gmap string string).

Record Dep := mkDep {
  name : option string;
  type : option string;
  version : option string;
  cves : option (list Finding)
}.

Record Document := mkDocument {
  project_name : option string;
  dependencies : option (list Dep)
}.

(** ** Configuration (the module-level constants, lines 8-10) *)

Record Config := mkConfig {
  SKIP_SYSTEM_LIBS : bool;
  OUTPUT_FORMAT : string;
  ENGINE : string
}.

Definition default_config : Config :=
  {| SKIP_SYSTEM_LIBS := true; OUTPUT_FORMAT := "png"; ENGINE := "dot" |}.

(** The newline of the f-string on line 64. *)
Definition nl : string := String "010"%char "".

(** ** The graphviz objects used by the script

    [graphviz.Digraph] keeps the statements of the graph as a list of lines
    ([body]) to which [attr], [node] and [edge] append, next to the layout
    [engine] used by [render] (["dot"] unless set).  Nothing is merged or
    looked up when a statement is added.  [node] writes the name it is
    given as one identifier; [edge] passes each of its two names through
    [quote_edge], which cuts it at [':'] into node, port and compass. *)

Module graphviz.

Definition attrs := list (string * string).

(** One end of an edge statement: [node], [node:port] or
    [node:port:compass]. *)
Record endpoint := mkEndpoint {
  ep_node : string;
  ep_port : option string;
  ep_compass : option string
}.

(** [identifier.partition(':')]: what is before the first [':'] and what is
    after it; the second part is empty also when there is none. *)
Fixpoint partition_colon (s : string) : string * string :=
  match s with
  | EmptyString => ("", "")
  | String c s' =>
      if Ascii.eqb c ":"%char then ("", s')
      else let '(before, after) := partition_colon s' in
           (String c before, after)
  end.

(** [quote_edge]: the part before the first [':'] is the node; when
    something follows, what is before the next [':'] is the port, and a
    non-empty remainder is the compass. *)
Definition quote_edge (identifier : string) : endpoint :=
  let '(node, rest) := partition_colon identifier in
  match rest with
  | EmptyString =>
      {| ep_node := node; ep_port := None; ep_compass := None |}
  | _ =>
      let '(port, compass) := partition_colon rest in
      {| ep_node := node; ep_port := Some port;
         ep_compass := match compass with
                       | EmptyString => None
                       | _ => Some compass
                       end |}
  end.

Inductive stmt :=
| Attr (kw : option string) (a : attrs)
| Node (name label : string) (a : attrs)
| EdgeStmt (tail head : endpoint).

(** The statement [Digraph.edge(tail_name, head_name)] writes. *)
Definition Edge (tail_name head_name : string) : stmt :=
  EdgeStmt (quote_edge tail_name) (quote_edge head_name).

Record Digraph := mkDigraph {
  comment : string;
  engine : string;
  body : list stmt
}.

Definition new (comment : string) : Digraph :=
  {| comment := comment; engine := "dot"; body := [] |}.

Definition append (s : stmt) (g : Digraph) : Digraph :=
  {| comment := comment g; engine := engine g; body := body g ++ [s] |}.

Definition attr (kw : option string) (a : attrs) : Digraph → Digraph :=
  append (Attr kw a).

Definition node (name label : string) (a : attrs) : Digraph → Digraph :=
  append (Node name label a).

(** [Digraph.edge]: both names go through [quote_edge]. *)
Definition edge (tail_name head_name : string) : Digraph → Digraph :=
  append (Edge tail_name head_name).

(** [dot.engine = e] *)
Definition set_engine (e : string) (g : Digraph) : Digraph :=
  {| comment := comment g; engine := e; body := body g |}.

(** Exceptions a run can end in: those of the library calls, and those
    Python raises on data of another shape than the script expects. *)
Inductive exn :=
| OSError | ExecutableNotFound | CalledProcessError
| AttributeError | TypeError.

End graphviz.

Import graphviz.

(** ** Colour classification (lines 12-20) *)

Definition get_security_color (dep : Dep) : string :=
  let cves := default [] (cves dep) in
  match cves with
  | [] => "lightgrey"
  | first :: _ =>
      let first_id := default "" (first !! "id") in
      if String.eqb first_id "SAFE" then "#90EE90"
      else if String.eqb first_id "NOT-CHECKED" then "lightgrey"
      else if String.eqb first_id "CHECK-ERROR" then "#FFE4B5"
      else "#FF6347"
  end.

(** ** Build pass (lines 39-70) *)

Section Build.

Variable cfg : Config.

(** Lines 40-46: the graph before the loop. *)
Definition init_graph (data : Document) : Digraph :=
  let dot := graphviz.new "Dependency Graph" in
  let dot := attr None [("rankdir", "LR")] dot in
  let dot :=
    attr (Some "node")
      [("shape", "box"); ("style", "filled"); ("fontname", "Helvetica")] dot in
  let project_name := default "Project" (project_name data) in
  node "ROOT" project_name
    [("shape", "doubleoctagon"); ("fillcolor", "lightblue")] dot.

(** The [continue] test of line 60. *)
Definition is_skipped (dep : Dep) : bool :=
  let dep_type := default "unknown" (type dep) in
  SKIP_SYSTEM_LIBS cfg && String.eqb dep_type "system".

(** One iteration of the loop of lines 54-70 on the triple
    [(dot, count, skipped)]. *)
Definition build_step (st : Digraph * nat * nat) (dep : Dep)
  : Digraph * nat * nat :=
  let '(dot, count, skipped) := st in
  let name := default "unknown" (name dep) in
  let dep_type := default "unknown" (type dep) in
  let version := default "?" (version dep) in
  if SKIP_SYSTEM_LIBS cfg && String.eqb dep_type "system" then
    (dot, count, S skipped)
  else
    let label := name ++ nl ++ version ++ nl ++ "(" ++ dep_type ++ ")" in
    let color := get_security_color dep in
    let dot := node name label [("fillcolor", color)] dot in
    let dot := edge "ROOT" name dot in
    (dot, S count, skipped).

(** Lines 39-70: graph and the two counters after the loop. *)
Definition build (data : Document) : Digraph * nat * nat :=
  let dot := init_graph data in
  let dependencies := default [] (dependencies data) in
  fold_left build_step dependencies (dot, 0, 0).

End Build.

(** ** Files, console and the outside world

    What a file holds is kept abstract: a JSON document of the expected
    shape; valid JSON of another shape, on which [json.load] succeeds and a
    later line raises [e], either before the loop (lines 40-48, as
    [data.get] does on a list) or in it (lines 54-70); anything else (on
    which [json.load] fails); the text written by [Digraph.save], which
    records the comment and the statements but not the engine; an image
    produced by an engine from such a text; or the empty or partial text
    left by a write that failed. *)

Inductive file :=
| FJson (data : Document)
| FJsonBad (in_loop : bool) (e : exn)
| FOther
| FSource (comment : string) (body : list stmt)
| FImage (engine format : string) (body : list stmt)
| FPartial.

(** What [json.load] returns: a document, or data on which the script
    raises. *)
Inductive loaded :=
| Doc (data : Document)
| Bad (in_loop : bool) (e : exn).

(** [json.load] on the content of a file; [None] is any exception. *)
Definition parse (f : file) : option loaded :=
  match f with
  | FJson data => Some (Doc data)
  | FJsonBad in_loop e => Some (Bad in_loop e)
  | _ => None
  end.

(** The [print] calls of [visualize], by source line. *)
Inductive msg :=
| MsgStart (json_file : string)                 (* line 23 *)
| MsgFileNotFound (json_file : string)          (* line 26 *)
| MsgLoading                                    (* line 30 *)
| MsgDone                                       (* lines 34 and 80 *)
| MsgJsonError                                  (* line 36 *)
| MsgBuilding                                   (* line 52 *)
| MsgBuilt (count skipped : nat)                (* line 72 *)
| MsgSaving (output_filename : string)          (* line 76 *)
| MsgRendering (engine format : string)         (* lines 83-84 *)
| MsgSwitchEngine                               (* line 90 *)
| MsgRendered (output_filename format : string) (* lines 95-96 *)
| MsgExecutableNotFound (src_path : string)     (* lines 99-101 *)
| MsgRenderError (output_filename : string).    (* lines 103-104 *)

(** Everything [visualize] does to the outside, in order. *)
Inductive event :=
| Print (m : msg)
| JsonLoad (json_file : string)
| Save (dot : Digraph) (filename : string)
| Render (dot : Digraph) (filename format : string).

Record World := mkWorld {
  fs : gmap string file;
  trace : list event
}.

(** How the two library calls that touch the disk and the engine end:
    [None] is success.  [Digraph.save] opens the file, which empties it,
    and then writes: [save_truncates] tells whether a failing save had got
    as far as opening it. *)
Record Env := mkEnv {
  save_error : option exn;
  save_truncates : bool;
  render_error : option exn
}.

(** How a call of [visualize] ends: it returns, or an exception leaves it. *)
Inductive outcome := Returned | Raised (e : exn).

Definition log (e : event) (w : World) : World :=
  {| fs := fs w; trace := trace w ++ [e] |}.

Definition print (m : msg) : World → World := log (Print m).

Definition write (path : string) (f : file) (w : World) : World :=
  {| fs := <[path := f]> (fs w); trace := trace w |}.

(** [os.path.exists] *)
Definition path_exists (path : string) (w : World) : bool :=
  match fs w !! path with Some _ => true | None => false end.

(** Lines 32-33: [open] and [json.load]; [None] is any exception. *)
Definition json_load (json_file : string) (w : World)
  : option loaded * World :=
  let w := log (JsonLoad json_file) w in
  match fs w !! json_file with
  | Some f => (parse f, w)
  | None => (None, w)
  end.

Section Run.

Variable cfg : Config.
Variable env : Env.

(** [Digraph.save(filename=...)]: opens the file, writes the text and
    returns its path; a failure after the file was opened leaves it empty
    or partial. *)
Definition save (dot : Digraph) (filename : string) (w : World)
  : (string + exn) * World :=
  let w := log (Save dot filename) w in
  match save_error env with
  | Some e =>
      (inr e, if save_truncates env then write filename FPartial w else w)
  | None => (inl filename, write filename (FSource (comment dot) (body dot)) w)
  end.

(** [Digraph.render(filename, view=False, format=..., cleanup=False)]:
    writes the text to [filename], runs the engine on it and, when that
    succeeds, leaves the image in [filename.format]; the text is kept. *)
Definition render (dot : Digraph) (filename format : string) (w : World)
  : (string + exn) * World :=
  let w := log (Render dot filename format) w in
  match render_error env with
  | Some OSError => (inr OSError, w)
  | Some e => (inr e, write filename (FSource (comment dot) (body dot)) w)
  | None =>
      let w := write filename (FSource (comment dot) (body dot)) w in
      let rendered := filename ++ "." ++ format in
      (inl rendered, write rendered (FImage (engine dot) format (body dot)) w)
  end.

(** Lines 89-91: the engine switch, first statement of the [try]. *)
Definition switch_engine (count : nat) (dot : Digraph) (w : World)
  : Digraph * World :=
  if (100 <? count)%nat && String.eqb (ENGINE cfg) "dot" then
    let w := print MsgSwitchEngine w in
    (set_engine "sfdp" dot, w)
  else (dot, w).

(** Lines 74-104: save the source, then render inside the [try]. *)
Definition save_and_render (dot : Digraph) (count : nat) (w : World)
  : outcome * World :=
  let output_filename := "dependency_graph" in
  let w := print (MsgSaving output_filename) w in
  match save dot (output_filename ++ ".gv") w with
  | (inr e, w) => (Raised e, w)
  | (inl src_path, w) =>
      let w := print MsgDone w in
      let w := print (MsgRendering (ENGINE cfg) (OUTPUT_FORMAT cfg)) w in
      let '(dot, w) := switch_engine count dot w in
      match render dot output_filename (OUTPUT_FORMAT cfg) w with
      | (inl _, w) =>
          (Returned, print (MsgRendered output_filename (OUTPUT_FORMAT cfg)) w)
      | (inr ExecutableNotFound, w) =>
          (Returned, print (MsgExecutableNotFound src_path) w)
      | (inr _, w) =>
          (Returned, print (MsgRenderError output_filename) w)
      end
  end.

(** Lines 22-104. *)
Definition visualize (json_file : string) (w : World) : outcome * World :=
  let w := print (MsgStart json_file) w in
  if negb (path_exists json_file w) then
    (Returned, print (MsgFileNotFound json_file) w)
  else
    let w := print MsgLoading w in
    match json_load json_file w with
    | (None, w) => (Returned, print MsgJsonError w)
    | (Some (Bad in_loop e), w) =>
        let w := print MsgDone w in
        if in_loop then (Raised e, print MsgBuilding w) else (Raised e, w)
    | (Some (Doc data), w) =>
        let w := print MsgDone w in
        let w := print MsgBuilding w in
        let '(dot, count, skipped) := build cfg data in
        let w := print (MsgBuilt count skipped) w in
        save_and_render dot count w
    end.

(** Lines 106-111: the script's entry point. *)
Definition main (argv : list string) (w : World) : outcome * World :=
  let path :=
    match argv with
    | _ :: arg :: _ => arg
    | _ => "depdiscover.json"
    end in
  visualize path w.

End Run.

(** The status the interpreter exits with. *)
Definition exit_status (o : outcome) : nat :=
  match o with Returned => 0 | Raised _ => 1 end.

(** ** Reading a graph description

    The statements of a body by kind, and the nodes they denote: in the
    graph language a node is its identity, so statements with one name
    declare one node, and an edge statement declares the nodes at its two
    ends as well.  Identifiers are compared as the names given to [node]
    and [edge]: graphviz escapes them when it writes them, which leaves a
    name of plain characters ([plain]) as it is. *)

Definition node_names (b : list stmt) : list string :=
  flat_map (λ s, match s with Node n _ _ => [n] | _ => [] end) b.

(** The edges, from node to node. *)
Definition edges (b : list stmt) : list (string * string) :=
  flat_map (λ s, match s with
                 | EdgeStmt t h => [(ep_node t, ep_node h)]
                 | _ => []
                 end) b.

Definition nodes (g : Digraph) : gset string :=
  list_to_set (node_names (body g) ++ (edges (body g)).*1
               ++ (edges (body g)).*2).

Definition non_root_nodes (g : Digraph) : gset string :=
  nodes g ∖ {["ROOT"]}.

(** The dependencies the loop keeps, in input order. *)
Definition retained (cfg : Config) (data : Document) : list Dep :=
  filter (λ dep, is_skipped cfg dep = false) (default [] (dependencies data)).

(** The identity line 55 gives a dependency's node. *)
Definition node_name (dep : Dep) : string := default "unknown" (name dep).

(** The three results of the build pass, under the specification's names. *)
Definition built_graph (cfg : Config) (data : Document) : Digraph :=
  (build cfg data).1.1.

Definition retainedCount (cfg : Config) (data : Document) : nat :=
  (build cfg data).1.2.

Definition skippedCount (cfg : Config) (data : Document) : nat :=
  (build cfg data).2.

(** The two statements lines 68-69 append for a retained dependency. *)
Definition dep_stmts (dep : Dep) : list stmt :=
  let name := default "unknown" (name dep) in
  let dep_type := default "unknown" (type dep) in
  let version := default "?" (version dep) in
  [ Node name (name ++ nl ++ version ++ nl ++ "(" ++ dep_type ++ ")")
      [("fillcolor", get_security_color dep)];
    Edge "ROOT" name ].

(** The first [Save] and the first [Render] of a trace: the graph object
    as it was when serialized, and as it was when given to the engine. *)
Definition saved (t : list event) : option Digraph :=
  head (flat_map (λ e, match e with Save dot _ => [dot] | _ => [] end) t).

Definition rendered (t : list event) : option Digraph :=
  head (flat_map (λ e, match e with Render dot _ _ => [dot] | _ => [] end) t).

(** The chain of comparisons of lines 17-20, as a function of the id. *)
Definition color_of_id (first_id : string) : string :=
  if String.eqb first_id "SAFE" then "#90EE90"
  else if String.eqb first_id "NOT-CHECKED" then "lightgrey"
  else if String.eqb first_id "CHECK-ERROR" then "#FFE4B5"
  else "#FF6347".

(** A graph with more statements appended. *)
Definition extend (g : Digraph) (l : list stmt) : Digraph :=
  {| comment := comment g; engine := engine g; body := body g ++ l |}.

(** The dependencies the loop skips, in input order. *)
Definition skipped_deps (cfg : Config) (data : Document) : list Dep :=
  filter (λ dep, is_skipped cfg dep = true) (default [] (dependencies data)).

(** The world when the script starts on a disk [fs0]. *)
Definition start (fs0 : gmap string file) : World :=
  {| fs := fs0; trace := [] |}.

(** The test of line 89. *)
Definition switch_cond (cfg : Config) (count : nat) : bool :=
  (100 <? count)%nat && String.eqb (ENGINE cfg) "dot".

(** The message a run that reached [render] ends with: line 95-96, or one
    of the two handlers of lines 98-104. *)
Definition final_msg (cfg : Config) (env : Env) : msg :=
  match render_error env with
  | None => MsgRendered "dependency_graph" (OUTPUT_FORMAT cfg)
  | Some ExecutableNotFound => MsgExecutableNotFound "dependency_graph.gv"
  | Some _ => MsgRenderError "dependency_graph"
  end.

(** ** Sample inputs *)

(** A dependency with every key absent, and a document with every key
    absent but for that one dependency. *)
Definition bare_dep : Dep :=
  {| name := None; type := None; version := None; cves := None |}.

Definition bare_doc : Document :=
  {| project_name := None; dependencies := Some [bare_dep] |}.

Definition named_dep (n : string) : Dep :=
  {| name := Some n; type := Some "library"; version := Some "1.0.0";
     cves := Some [ {[ "id" := "SAFE" ]} ] |}.

(** Two dependencies of the same name. *)
Definition dup_doc : Document :=
  {| project_name := Some "demo";
     dependencies := Some [named_dep "a"; named_dep "a"] |}.

(** 101 dependencies, none of them a system library. *)
Definition big_doc : Document :=
  {| project_name := Some "demo";
     dependencies := Some (replicate 101 (named_dep "a")) |}.

(** Dependencies with a given first finding. *)
Definition dep_with (first : Finding) (rest : list Finding) : Dep :=
  {| name := Some "x"; type := Some "library"; version := None;
     cves := Some (first :: rest) |}.

(** Two libraries around a system library. *)
Definition mixed_doc : Document :=
  {| project_name := Some "demo";
     dependencies :=
       Some [ named_dep "a";
              {| name := Some "libc"; type := Some "system";
                 version := None; cves := None |};
              named_dep "b" ] |}.

(** The two one-dependency documents of the specification's scenarios. *)
Definition libc_doc : Document :=
  {| project_name := None;
     dependencies :=
       Some [ {| name := Some "libc"; type := Some "system";
                 version := None; cves := None |} ] |}.

Definition left_pad_doc : Document :=
  {| project_name := None;
     dependencies :=
       Some [ {| name := Some "left-pad"; type := Some "library";
                 version := Some "1.0.0";
                 cves := Some [ {[ "id" := "SAFE" ]} ] |} ] |}.

(** A disk that holds one document under the default input path. *)
Definition disk_with (data : Document) : gmap string file :=
  {[ "depdiscover.json" := FJson data ]}.

Definition ok_env : Env :=
  {| save_error := None; save_truncates := false; render_error := None |}.

Definition no_engine_env : Env :=
  {| save_error := None; save_truncates := false;
     render_error := Some ExecutableNotFound |}.

(** ** More readings of the code *)

(** The id line 16 reads, when the [cves] list has a first finding. *)
Definition first_id (dep : Dep) : option string :=
  match default [] (cves dep) with
  | [] => None
  | first :: _ => Some (default "" (first !! "id"))
  end.

(** The node at the head of the edge line 69 writes for a dependency. *)
Definition head_node (dep : Dep) : string :=
  ep_node (quote_edge (node_name dep)).

(** A name without [':']. *)
Definition no_colon (s : string) : bool :=
  forallb (λ c, negb (Ascii.eqb c ":"%char)) (list_ascii_of_string s).

(** Letters, digits and a few signs common in package names: characters
    graphviz writes as they are, inside quotes or not. *)
Definition plain_char (c : ascii) : bool :=
  let n := nat_of_ascii c in
  ((48 <=? n) && (n <=? 57) || (65 <=? n) && (n <=? 90)
   || (97 <=? n) && (n <=? 122))%nat
  || existsb (Ascii.eqb c) (list_ascii_of_string "_-.+/@").

(** A non-empty name of plain characters. *)
Definition plain (s : string) : bool :=
  negb (String.eqb s "") && forallb plain_char (list_ascii_of_string s).


(** Where line 93 leaves the image. *)
Definition image_path (cfg : Config) : string :=
  "dependency_graph" ++ "." ++ OUTPUT_FORMAT cfg.

(** The engine the graph carries when [render] is called. *)
Definition render_engine (cfg : Config) (count : nat) : string :=
  if switch_cond cfg count then "sfdp" else "dot".

(** A document with a given dependency list. *)
Definition doc_of (pn : option string) (deps : list Dep) : Document :=
  {| project_name := pn; dependencies := Some deps |}.

(** The disk after a run in which nothing failed. *)
Definition disk_after (cfg : Config) (data : Document)
  (fs0 : gmap string file) : gmap string file :=
  let g := built_graph cfg data in
  <[ image_path cfg :=
       FImage (render_engine cfg (retainedCount cfg data))
         (OUTPUT_FORMAT cfg) (body g) ]>
    (<[ "dependency_graph" := FSource (comment g) (body g) ]>
       (<[ "dependency_graph.gv" := FSource (comment g) (body g) ]> fs0)).

(** More sample inputs. *)
Definition neato_config : Config :=
  {| SKIP_SYSTEM_LIBS := true; OUTPUT_FORMAT := "svg"; ENGINE := "neato" |}.

Definition keep_all_config : Config :=
  {| SKIP_SYSTEM_LIBS := false; OUTPUT_FORMAT := "png"; ENGINE := "dot" |}.

Definition disk_full_env : Env :=
  {| save_error := Some OSError; save_truncates := true;
     render_error := None |}.

Definition empty_doc : Document :=
  {| project_name := Some "demo"; dependencies := Some [] |}.

(** A dependency whose name has a [':'], as C++ and Perl packages do. *)
Definition port_doc : Document :=
  {| project_name := Some "demo";
     dependencies := Some [named_dep "x:p1"] |}.

(** A disk whose input file is JSON, but a list. *)
Definition list_disk : gmap string file :=
  {[ "depdiscover.json" := FJsonBad false AttributeError ]}.

(** A disk whose input file is not JSON. *)
Definition broken_disk : gmap string file :=
  {[ "depdiscover.json" := FOther ]}.

(** * Properties *)

(** ** Colour classification *)

Section Classification.

Implicit Types (dep : Dep) (first : Finding) (rest : list Finding).

Lemma color_of_empty dep :
  default [] (cves dep) = [] → get_security_color dep = "lightgrey".
Proof. unfold get_security_color. by intros ->. Qed.

Lemma color_of_first dep first rest :
  default [] (cves dep) = first :: rest →
  get_security_color dep = color_of_id (default "" (first !! "id")).
Proof. unfold get_security_color. by intros ->. Qed.

Lemma color_of_id_other (first_id : string) :
  first_id ≠ "SAFE" → first_id ≠ "NOT-CHECKED" → first_id ≠ "CHECK-ERROR" →
  color_of_id first_id = "#FF6347".
Proof.
  intros H1 H2 H3. unfold color_of_id.
  apply String.eqb_neq in H1, H2, H3. by rewrite H1, H2, H3.
Qed.

(** C1: [get_security_color] yields the neutral colour ["lightgrey"] on an
    empty [cves] sequence; otherwise it looks at the id of the first
    finding: ["SAFE"] gives the safe colour ["#90EE90"], ["NOT-CHECKED"] the
    same neutral colour as the empty case, ["CHECK-ERROR"] the warning
    colour ["#FFE4B5"], and every other id the danger colour ["#FF6347"]. *)
Theorem get_security_color_cases dep :
  (default [] (cves dep) = [] → get_security_color dep = "lightgrey") ∧
  (∀ first rest, default [] (cves dep) = first :: rest →
     let first_id := default "" (first !! "id") in
     (first_id = "SAFE" → get_security_color dep = "#90EE90") ∧
     (first_id = "NOT-CHECKED" → get_security_color dep = "lightgrey") ∧
     (first_id = "CHECK-ERROR" → get_security_color dep = "#FFE4B5") ∧
     (first_id ≠ "SAFE" → first_id ≠ "NOT-CHECKED" →
      first_id ≠ "CHECK-ERROR" → get_security_color dep = "#FF6347")).
Proof.
  split; [apply color_of_empty |].
  intros first rest Hc first_id. rewrite (color_of_first _ _ _ Hc).
  fold first_id. repeat split.
  - by intros ->.
  - by intros ->.
  - by intros ->.
  - apply color_of_id_other.
Qed.

(** C4: two dependencies whose [cves] sequences start with the same finding
    get the same colour, whatever follows it and whatever their other
    fields hold. *)
Theorem get_security_color_first_only dep1 dep2 first rest1 rest2 :
  default [] (cves dep1) = first :: rest1 →
  default [] (cves dep2) = first :: rest2 →
  get_security_color dep1 = get_security_color dep2.
Proof.
  intros H1 H2.
  by rewrite (color_of_first _ _ _ H1), (color_of_first _ _ _ H2).
Qed.

(** C10: when the [cves] sequence is not empty and its first finding has no
    ["id"] key, the id read is the empty string, which is none of the three
    sentinels, and the colour is the danger colour ["#FF6347"]. *)
Theorem get_security_color_missing_id dep first rest :
  default [] (cves dep) = first :: rest →
  first !! "id" = None →
  default "" (first !! "id") = "" ∧
  "" ≠ "SAFE" ∧ "" ≠ "NOT-CHECKED" ∧ "" ≠ "CHECK-ERROR" ∧
  get_security_color dep = "#FF6347".
Proof.
  intros Hc Hid. rewrite (color_of_first _ _ _ Hc), Hid. by repeat split.
Qed.

End Classification.

(** ** The build pass *)

Section BuildFacts.

Variable cfg : Config.

Implicit Types (dot : Digraph) (dep : Dep) (deps : list Dep) (data : Document).

Lemma build_step_skipped dot c s dep :
  is_skipped cfg dep = true →
  build_step cfg (dot, c, s) dep = (dot, c, S s).
Proof. unfold is_skipped, build_step. by intros ->. Qed.

Lemma build_step_retained dot c s dep :
  is_skipped cfg dep = false →
  build_step cfg (dot, c, s) dep = (extend dot (dep_stmts dep), S c, s).
Proof.
  unfold is_skipped, build_step. intros ->.
  unfold extend, dep_stmts, edge, node, append. simpl.
  by rewrite <- app_assoc.
Qed.

Lemma extend_nil dot : extend dot [] = dot.
Proof. destruct dot. unfold extend. simpl. by rewrite app_nil_r. Qed.

Lemma extend_extend dot l1 l2 :
  extend (extend dot l1) l2 = extend dot (l1 ++ l2).
Proof. unfold extend. simpl. by rewrite app_assoc. Qed.

Lemma fold_build_step deps : ∀ dot c s,
  fold_left (build_step cfg) deps (dot, c, s) =
  (extend dot
     (flat_map dep_stmts (filter (λ dep, is_skipped cfg dep = false) deps)),
   c + length (filter (λ dep, is_skipped cfg dep = false) deps),
   s + length (filter (λ dep, is_skipped cfg dep = true) deps)).
Proof.
  induction deps as [|dep deps IH]; intros dot c s.
  - simpl. rewrite extend_nil. f_equal; [f_equal|]; lia.
  - cbn [fold_left]. destruct (is_skipped cfg dep) eqn:Hs.
    + rewrite build_step_skipped, IH by done.
      rewrite (filter_cons_False _ _ _) by (rewrite Hs; done).
      rewrite (filter_cons_True (λ dep, is_skipped cfg dep = true)) by done.
      simpl. f_equal. lia.
    + rewrite build_step_retained, IH by done.
      rewrite (filter_cons_True _ _ _) by done.
      rewrite (filter_cons_False (λ dep, is_skipped cfg dep = true))
        by (rewrite Hs; done).
      cbn [flat_map]. rewrite extend_extend. cbn [length].
      f_equal. f_equal. lia.
Qed.

Lemma build_eq data :
  build cfg data =
  (extend (init_graph data) (flat_map dep_stmts (retained cfg data)),
   length (retained cfg data), length (skipped_deps cfg data)).
Proof. unfold build. by rewrite fold_build_step. Qed.

Lemma built_graph_eq data :
  built_graph cfg data =
  extend (init_graph data) (flat_map dep_stmts (retained cfg data)).
Proof. unfold built_graph. by rewrite build_eq. Qed.

Lemma retainedCount_eq data :
  retainedCount cfg data = length (retained cfg data).
Proof. unfold retainedCount. by rewrite build_eq. Qed.

Lemma skippedCount_eq data :
  skippedCount cfg data = length (skipped_deps cfg data).
Proof. unfold skippedCount. by rewrite build_eq. Qed.

Lemma length_partition deps :
  length (filter (λ dep, is_skipped cfg dep = false) deps) +
  length (filter (λ dep, is_skipped cfg dep = true) deps) = length deps.
Proof.
  induction deps as [|dep deps IH]; [done|].
  destruct (is_skipped cfg dep) eqn:Hs.
  - rewrite (filter_cons_False _ _ _) by (rewrite Hs; done).
    rewrite (filter_cons_True (λ dep, is_skipped cfg dep = true)) by done.
    simpl. lia.
  - rewrite (filter_cons_True _ _ _) by done.
    rewrite (filter_cons_False (λ dep, is_skipped cfg dep = true))
      by (rewrite Hs; done).
    simpl. lia.
Qed.

Lemma is_skipped_true dep :
  is_skipped cfg dep = true ↔
  SKIP_SYSTEM_LIBS cfg = true ∧ default "unknown" (type dep) = "system".
Proof.
  unfold is_skipped. rewrite andb_true_iff. by rewrite String.eqb_eq.
Qed.

(** C2: after the build pass [retainedCount + skippedCount] is the length
    of the dependency list, for every list and both values of the flag:
    an iteration on a dependency of type ["system"] under a set flag adds
    one to [skipped] and leaves [count], and every other iteration adds one
    to [count] and leaves [skipped]. *)
Theorem counters_partition data :
  retainedCount cfg data + skippedCount cfg data
    = length (default [] (dependencies data)) ∧
  ∀ dot count skipped dep,
    (SKIP_SYSTEM_LIBS cfg = true ∧ default "unknown" (type dep) = "system" ∧
     build_step cfg (dot, count, skipped) dep = (dot, count, S skipped)) ∨
    (¬ (SKIP_SYSTEM_LIBS cfg = true ∧
        default "unknown" (type dep) = "system") ∧
     ∃ dot', build_step cfg (dot, count, skipped) dep
             = (dot', S count, skipped)).
Proof.
  split.
  - rewrite retainedCount_eq, skippedCount_eq. apply length_partition.
  - intros dot count skipped dep. destruct (is_skipped cfg dep) eqn:Hs.
    + left. pose proof (proj1 (is_skipped_true dep) Hs) as [? ?].
      by rewrite build_step_skipped.
    + right. split.
      * intros H%is_skipped_true. congruence.
      * eexists. by apply build_step_retained.
Qed.

End BuildFacts.

(** ** Shape of the built graph *)

Section GraphFacts.

Variable cfg : Config.

Implicit Types (dep : Dep) (deps : list Dep) (data : Document).

Lemma partition_no_colon (s : string) :
  no_colon s = true → partition_colon s = (s, "").
Proof.
  unfold no_colon. induction s as [|c s IH]; [done|].
  cbn [list_ascii_of_string forallb partition_colon].
  intros [Hc Hs]%andb_true_iff. apply negb_true_iff in Hc. rewrite Hc.
  by rewrite (IH Hs).
Qed.

Lemma quote_edge_no_colon (s : string) :
  no_colon s = true →
  quote_edge s = {| ep_node := s; ep_port := None; ep_compass := None |}.
Proof. intros H. unfold quote_edge. by rewrite partition_no_colon. Qed.

Lemma head_node_no_colon dep :
  no_colon (node_name dep) = true → head_node dep = node_name dep.
Proof. intros H. unfold head_node. by rewrite quote_edge_no_colon. Qed.

Lemma plain_char_no_colon (c : ascii) :
  plain_char c = true → Ascii.eqb c ":"%char = false.
Proof.
  intros H. destruct (Ascii.eqb_spec c ":"%char) as [->|]; [|done].
  by vm_compute in H.
Qed.

Lemma plain_no_colon (s : string) : plain s = true → no_colon s = true.
Proof.
  unfold plain, no_colon. intros [_ H]%andb_true_iff.
  induction s as [|c s IH]; [done|].
  cbn [list_ascii_of_string forallb] in *.
  apply andb_true_iff in H as [Hc Hs].
  by rewrite (plain_char_no_colon _ Hc), (IH Hs).
Qed.

Lemma head_nodes_plain deps :
  Forall (λ dep, plain (node_name dep) = true) deps →
  map head_node deps = map node_name deps.
Proof.
  induction 1 as [|dep deps Hp _ IH]; [done|].
  cbn [map]. by rewrite IH, head_node_no_colon by by apply plain_no_colon.
Qed.

Lemma node_names_dep_stmts deps :
  node_names (flat_map dep_stmts deps) = map node_name deps.
Proof. induction deps as [|dep deps IH]; [done|]. simpl. by f_equal. Qed.

Lemma edges_dep_stmts deps :
  edges (flat_map dep_stmts deps) = map (λ dep, ("ROOT", head_node dep)) deps.
Proof. induction deps as [|dep deps IH]; [done|]. simpl. by f_equal. Qed.

Lemma node_names_built data :
  node_names (body (built_graph cfg data))
  = "ROOT" :: map node_name (retained cfg data).
Proof.
  rewrite built_graph_eq. unfold extend, node_names. cbn [body].
  rewrite flat_map_app.
  fold (node_names (flat_map dep_stmts (retained cfg data))).
  by rewrite node_names_dep_stmts.
Qed.

Lemma edges_built data :
  edges (body (built_graph cfg data))
  = map (λ dep, ("ROOT", head_node dep)) (retained cfg data).
Proof.
  rewrite built_graph_eq. unfold extend, edges. cbn [body].
  rewrite flat_map_app.
  fold (edges (flat_map dep_stmts (retained cfg data))).
  by rewrite edges_dep_stmts.
Qed.

Lemma edge_tails (deps : list Dep) :
  (map (λ dep, ("ROOT", head_node dep)) deps).*1
  = replicate (length deps) "ROOT".
Proof. induction deps as [|dep deps IH]; [done|]. simpl. by f_equal. Qed.

Lemma edge_heads (deps : list Dep) :
  (map (λ dep, ("ROOT", head_node dep)) deps).*2 = map head_node deps.
Proof. induction deps as [|dep deps IH]; [done|]. simpl. by f_equal. Qed.

Lemma non_root_nodes_built data :
  non_root_nodes (built_graph cfg data)
  = (list_to_set (map node_name (retained cfg data))
     ∪ list_to_set (map head_node (retained cfg data))) ∖ {["ROOT"]}.
Proof.
  unfold non_root_nodes, nodes.
  rewrite node_names_built, edges_built, edge_tails, edge_heads.
  apply set_eq. intros x.
  rewrite !elem_of_difference, !elem_of_list_to_set, !elem_of_app.
  rewrite elem_of_cons, elem_of_union, !elem_of_list_to_set.
  rewrite elem_of_singleton, elem_of_replicate.
  split; intros [H Hne]; (split; [|done]); intuition.
Qed.

(** C3, as the code has it: besides the root's, the built graph holds one
    node statement per retained dependency, in input order and none for a
    skipped one, and one edge per retained dependency, each leaving
    ["ROOT"]; these statements denote [retainedCount] distinct nodes other
    than the root when the retained dependencies have pairwise different
    names, none of them ["ROOT"], each a non-empty string of letters,
    digits and the signs [_ - . + / @] (so that no name is cut at a [':']
    and each is written as it is). *)
Theorem graph_counts data :
  let g := built_graph cfg data in
  node_names (body g) = "ROOT" :: map node_name (retained cfg data) ∧
  length (node_names (body g)) = S (retainedCount cfg data) ∧
  length (edges (body g)) = retainedCount cfg data ∧
  (∀ e, e ∈ edges (body g) → e.1 = "ROOT") ∧
  (NoDup (map node_name (retained cfg data)) →
   "ROOT" ∉ map node_name (retained cfg data) →
   Forall (λ dep, plain (node_name dep) = true) (retained cfg data) →
   size (non_root_nodes g) = retainedCount cfg data).
Proof.
  intros g. subst g. rewrite node_names_built, edges_built, retainedCount_eq.
  repeat split.
  - simpl. by rewrite length_map.
  - by rewrite length_map.
  - intros e [dep [-> _]]%list_elem_of_fmap. done.
  - intros Hnd Hroot Hplain. rewrite non_root_nodes_built.
    rewrite (head_nodes_plain _ Hplain).
    rewrite <- (length_map node_name),
      <- (size_list_to_set (C := gset string)) by done.
    f_equal. apply set_eq. intros x.
    rewrite elem_of_difference, elem_of_union, elem_of_singleton.
    split; [tauto|].
    intros Hx. split; [by left|]. intros ->.
    by apply elem_of_list_to_set in Hx.
Qed.

(** C5: a dependency the loop keeps gets a node whose identity is its
    [name] and whose label has the three lines name, version and type in
    brackets, with ["unknown"] for an absent name, ["unknown"] for an absent
    type and ["?"] for an absent version; a dependency without type is
    never skipped; and the root node is labelled with [project_name], or
    with the non-empty placeholder ["Project"] when that is absent. *)
Theorem missing_fields_default data :
  (∃ label,
     Node "ROOT" label [("shape", "doubleoctagon"); ("fillcolor", "lightblue")]
       ∈ body (built_graph cfg data) ∧
     (project_name data = None → label = "Project" ∧ label ≠ "") ∧
     (∀ p, project_name data = Some p → label = p)) ∧
  ∀ dep, dep ∈ default [] (dependencies data) →
    (type dep = None → is_skipped cfg dep = false) ∧
    (is_skipped cfg dep = false →
     ∃ n v t,
       Node n (n ++ nl ++ v ++ nl ++ "(" ++ t ++ ")")
         [("fillcolor", get_security_color dep)]
         ∈ body (built_graph cfg data) ∧
       Edge "ROOT" n ∈ body (built_graph cfg data) ∧
       (name dep = None → n = "unknown") ∧
       (type dep = None → t = "unknown") ∧
       (version dep = None → v = "?") ∧
       (∀ x, name dep = Some x → n = x) ∧
       (∀ x, type dep = Some x → t = x) ∧
       (∀ x, version dep = Some x → v = x)).
Proof.
  rewrite built_graph_eq. split.
  - exists (default "Project" (project_name data)). split; [|split].
    + unfold extend, init_graph, node, attr, append. simpl.
      do 2 apply list_elem_of_further. apply list_elem_of_here.
    + by intros ->.
    + by intros p ->.
  - intros dep Hin. split.
    + unfold is_skipped. intros ->. simpl. apply andb_false_r.
    + intros Hs.
      assert (Hsub : ∀ s, s ∈ dep_stmts dep →
                s ∈ body (extend (init_graph data)
                            (flat_map dep_stmts (retained cfg data)))).
      { intros s Hsin. unfold extend. cbn [body]. apply elem_of_app. right.
        apply list_elem_of_In, in_flat_map. exists dep. split.
        - apply list_elem_of_In. unfold retained. by apply list_elem_of_filter.
        - by apply list_elem_of_In. }
      exists (default "unknown" (name dep)), (default "?" (version dep)),
             (default "unknown" (type dep)).
      split; [|split].
      * apply Hsub. unfold dep_stmts. apply list_elem_of_here.
      * apply Hsub. unfold dep_stmts. apply list_elem_of_further, list_elem_of_here.
      * repeat split; try (by intros ->); by intros x ->.
Qed.

End GraphFacts.

(** ** Runs of [visualize] *)

Section RunFacts.

Variable cfg : Config.
Variable env : Env.

Implicit Types (w : World) (data : Document).

Lemma build_triple data :
  build cfg data
  = (built_graph cfg data, retainedCount cfg data, skippedCount cfg data).
Proof.
  unfold built_graph, retainedCount, skippedCount.
  by destruct (build cfg data) as [[? ?] ?].
Qed.

Lemma engine_built data : engine (built_graph cfg data) = "dot".
Proof. by rewrite built_graph_eq. Qed.

Lemma visualize_missing json_file w :
  fs w !! json_file = None →
  visualize cfg env json_file w
  = (Returned, print (MsgFileNotFound json_file) (print (MsgStart json_file) w)).
Proof.
  intros Hf. unfold visualize, path_exists. cbn [fs print log]. by rewrite Hf.
Qed.

Lemma visualize_loaded json_file w data :
  fs w !! json_file = Some (FJson data) →
  visualize cfg env json_file w
  = save_and_render cfg env (built_graph cfg data) (retainedCount cfg data)
      (print (MsgBuilt (retainedCount cfg data) (skippedCount cfg data))
        (print MsgBuilding (print MsgDone
          (log (JsonLoad json_file)
            (print MsgLoading (print (MsgStart json_file) w)))))).
Proof.
  intros Hf. unfold visualize, path_exists, json_load.
  cbn [fs print log]. rewrite Hf. cbn [negb parse]. by rewrite build_triple.
Qed.

Lemma switch_engine_eq count dot w :
  switch_engine cfg count dot w
  = if switch_cond cfg count
    then (set_engine "sfdp" dot, print MsgSwitchEngine w)
    else (dot, w).
Proof. done. Qed.

Lemma switch_cond_true count :
  switch_cond cfg count = true ↔ 100 < count ∧ ENGINE cfg = "dot".
Proof.
  unfold switch_cond.
  by rewrite andb_true_iff, Nat.ltb_lt, String.eqb_eq.
Qed.

(** Every event of a run whose input loads and whose source is saved. *)
Lemma run_trace json_file (fs0 : gmap string file) data :
  fs0 !! json_file = Some (FJson data) →
  save_error env = None →
  let g := built_graph cfg data in
  let c := retainedCount cfg data in
  trace (visualize cfg env json_file (start fs0)).2 =
    ([ Print (MsgStart json_file); Print MsgLoading; JsonLoad json_file;
       Print MsgDone; Print MsgBuilding;
       Print (MsgBuilt c (skippedCount cfg data));
       Print (MsgSaving "dependency_graph"); Save g "dependency_graph.gv";
       Print MsgDone; Print (MsgRendering (ENGINE cfg) (OUTPUT_FORMAT cfg)) ]
     ++ (if switch_cond cfg c then [Print MsgSwitchEngine] else [])
     ++ [ Render (if switch_cond cfg c then set_engine "sfdp" g else g)
            "dependency_graph" (OUTPUT_FORMAT cfg);
          Print (final_msg cfg env) ])%list.
Proof.
  intros Hf Hs g c. rewrite (visualize_loaded _ _ data) by done.
  unfold save_and_render, save. rewrite Hs, switch_engine_eq.
  fold c g. unfold final_msg, render.
  destruct (switch_cond cfg c), (render_error env) as [[]|]; reflexivity.
Qed.

Lemma run_saved json_file (fs0 : gmap string file) data :
  fs0 !! json_file = Some (FJson data) →
  save_error env = None →
  saved (trace (visualize cfg env json_file (start fs0)).2)
  = Some (built_graph cfg data).
Proof.
  intros Hf Hs. rewrite (run_trace _ _ data) by done.
  by destruct (switch_cond cfg _).
Qed.

Lemma run_rendered json_file (fs0 : gmap string file) data :
  fs0 !! json_file = Some (FJson data) →
  save_error env = None →
  rendered (trace (visualize cfg env json_file (start fs0)).2)
  = Some (if switch_cond cfg (retainedCount cfg data)
          then set_engine "sfdp" (built_graph cfg data)
          else built_graph cfg data).
Proof.
  intros Hf Hs. rewrite (run_trace _ _ data) by done.
  by destruct (switch_cond cfg _).
Qed.

Lemma run_switch_msg json_file (fs0 : gmap string file) data :
  fs0 !! json_file = Some (FJson data) →
  save_error env = None →
  Print MsgSwitchEngine ∈ trace (visualize cfg env json_file (start fs0)).2
  ↔ switch_cond cfg (retainedCount cfg data) = true.
Proof.
  intros Hf Hs. rewrite (run_trace _ _ data) by done.
  unfold final_msg.
  destruct (switch_cond cfg _), (render_error env) as [[]|]; cbn [app];
    rewrite !elem_of_cons, elem_of_nil; intuition congruence.
Qed.

Lemma set_engine_neq data :
  set_engine "sfdp" (built_graph cfg data) ≠ built_graph cfg data.
Proof.
  intros H. apply (f_equal engine) in H. rewrite engine_built in H.
  discriminate H.
Qed.

(** C6: in a run that reaches the render step, the engine is switched, as
    the last thing before [render] is called, exactly when [count] is above
    100 and [ENGINE] is ["dot"]: then, and only then, the switch is
    announced and the graph is rendered with ["sfdp"]; otherwise the graph
    is rendered as it was built. *)
Theorem engine_switch json_file (fs0 : gmap string file) data :
  fs0 !! json_file = Some (FJson data) →
  save_error env = None →
  let c := retainedCount cfg data in
  let g := built_graph cfg data in
  let t := trace (visualize cfg env json_file (start fs0)).2 in
  ((100 < c ∧ ENGINE cfg = "dot") ↔ Print MsgSwitchEngine ∈ t) ∧
  ((100 < c ∧ ENGINE cfg = "dot") ↔ rendered t = Some (set_engine "sfdp" g)) ∧
  (¬ (100 < c ∧ ENGINE cfg = "dot") ↔ rendered t = Some g) ∧
  (Print MsgSwitchEngine ∈ t →
   ∃ pre post,
     t = (pre ++ Print MsgSwitchEngine
              :: Render (set_engine "sfdp" g) "dependency_graph"
                   (OUTPUT_FORMAT cfg)
              :: post)%list).
Proof.
  intros Hf Hs c g t. subst t.
  rewrite (run_switch_msg _ _ data), (run_rendered _ _ data) by done.
  fold c g. rewrite <- switch_cond_true.
  pose proof (set_engine_neq data) as Hne. fold g in Hne.
  split; [done|]. split; [|split].
  - destruct (switch_cond cfg c); split; try done.
    intros [= H]. by symmetry in H.
  - destruct (switch_cond cfg c); split; try done.
    by intros [= H].
  - intros Hc. rewrite (run_trace _ _ data) by done. fold c g. rewrite Hc.
    eexists _, _. reflexivity.
Qed.

(** C7: when the input path does not exist, [visualize] prints the start
    line and the file-not-found line and returns: nothing is loaded, saved
    or rendered, and no file is written. *)
Theorem missing_input_halts json_file w :
  fs w !! json_file = None →
  let r := visualize cfg env json_file w in
  r.1 = Returned ∧ exit_status r.1 = 0 ∧
  fs r.2 = fs w ∧
  trace r.2 = (trace w ++ [ Print (MsgStart json_file);
                            Print (MsgFileNotFound json_file) ])%list.
Proof.
  intros Hf r. subst r. rewrite visualize_missing by done.
  cbn. by rewrite <- app_assoc.
Qed.

(** C8: when the render step fails, whether the engine executable is not
    found or anything else goes wrong, [visualize] still returns (exit
    status 0), having reported the failure as its last action; the source
    file [dependency_graph.gv] holds what the save step wrote, and nothing
    but that file and the copy [render] makes of it has been written. *)
Theorem render_failure_keeps_source json_file w data e :
  fs w !! json_file = Some (FJson data) →
  save_error env = None →
  render_error env = Some e →
  let g := built_graph cfg data in
  let r := visualize cfg env json_file w in
  r.1 = Returned ∧ exit_status r.1 = 0 ∧
  fs r.2 !! "dependency_graph.gv" = Some (FSource (comment g) (body g)) ∧
  (∀ p, p ≠ "dependency_graph.gv" → p ≠ "dependency_graph" →
        fs r.2 !! p = fs w !! p) ∧
  last (trace r.2)
  = Some (Print (match e with
                 | ExecutableNotFound =>
                     MsgExecutableNotFound "dependency_graph.gv"
                 | _ => MsgRenderError "dependency_graph"
                 end)).
Proof.
  intros Hf Hs Hr g r. subst r. rewrite (visualize_loaded _ _ data) by done.
  unfold save_and_render, save. rewrite Hs, switch_engine_eq.
  fold g. unfold render.
  destruct (switch_cond cfg _); rewrite Hr; destruct e; cbn;
    (split; [done|]); (split; [done|]);
    (split; [by simplify_map_eq|]);
    (split; [intros p Hp1 Hp2; by simplify_map_eq | by rewrite last_snoc]).
Qed.

(** C9: the graph description is handed unchanged to the renderer: the
    graph given to [render] has the comment and the statements of the
    graph that was serialized, and nothing is saved or appended in
    between.  The layout engine is a setting of the rendering, not part of
    the description: the object given to [render] differs from the one
    serialized, in that setting alone, exactly when [count] is above 100
    and [ENGINE] is ["dot"]. *)
Theorem render_gets_saved_content json_file (fs0 : gmap string file) data :
  fs0 !! json_file = Some (FJson data) →
  save_error env = None →
  let g := built_graph cfg data in
  let t := trace (visualize cfg env json_file (start fs0)).2 in
  saved t = Some g ∧
  ∃ g', rendered t = Some g' ∧
        comment g' = comment g ∧ body g' = body g ∧
        (g' ≠ g ↔ 100 < retainedCount cfg data ∧ ENGINE cfg = "dot") ∧
        (g' ≠ g → engine g' = "sfdp").
Proof.
  intros Hf Hs g t. subst t.
  rewrite (run_saved _ _ data), (run_rendered _ _ data) by done.
  fold g. split; [done|].
  pose proof (set_engine_neq data) as Hne. fold g in Hne.
  pose proof (switch_cond_true (retainedCount cfg data)) as Hc.
  destruct (switch_cond cfg _); eexists; (split; [done|]);
    repeat split; try done.
  - by apply Hc.
  - by apply Hc.
  - intros H%Hc. done.
Qed.

End RunFacts.

(** ** Concrete inputs *)

Example system_lib_skipped :
  build default_config libc_doc
  = (init_graph libc_doc, 0, 1).
Proof. reflexivity. Qed.

Example system_lib_kept_when_flag_unset :
  skippedCount {| SKIP_SYSTEM_LIBS := false; OUTPUT_FORMAT := "png";
                  ENGINE := "dot" |} libc_doc = 0.
Proof. reflexivity. Qed.

Example left_pad_node :
  body (built_graph default_config left_pad_doc)
  = (body (init_graph left_pad_doc)
     ++ [ Node "left-pad" ("left-pad" ++ nl ++ "1.0.0" ++ nl ++ "(library)")
            [("fillcolor", "#90EE90")];
          Edge "ROOT" "left-pad" ])%list.
Proof. reflexivity. Qed.

Example port_name_two_nodes :
  retainedCount default_config port_doc = 1 ∧
  non_root_nodes (built_graph default_config port_doc) = {[ "x:p1"; "x" ]} ∧
  size (non_root_nodes (built_graph default_config port_doc)) = 2.
Proof. by vm_compute. Qed.

Example list_input_raises :
  visualize default_config ok_env "depdiscover.json" (start list_disk)
  = (Raised AttributeError,
     {| fs := list_disk;
        trace := [ Print (MsgStart "depdiscover.json"); Print MsgLoading;
                   JsonLoad "depdiscover.json"; Print MsgDone ] |}).
Proof. reflexivity. Qed.

Example default_path :
  main default_config ok_env ["visualize_deps.py"] (start ∅)
  = visualize default_config ok_env "depdiscover.json" (start ∅).
Proof. reflexivity. Qed.

Lemma get_security_color_cases_witness :
  get_security_color bare_dep = "lightgrey" ∧
  get_security_color (dep_with {[ "id" := "SAFE" ]} []) = "#90EE90" ∧
  get_security_color (dep_with {[ "id" := "NOT-CHECKED" ]} []) = "lightgrey" ∧
  get_security_color (dep_with {[ "id" := "CHECK-ERROR" ]} []) = "#FFE4B5" ∧
  get_security_color (dep_with {[ "id" := "CVE-2023-1234" ]} []) = "#FF6347".
Proof.
  split; [|split; [|split; [|split]]].
  - apply (proj1 (get_security_color_cases bare_dep)). reflexivity.
  - destruct (proj2 (get_security_color_cases
                       (dep_with {[ "id" := "SAFE" ]} [])) _ _ eq_refl)
      as (H & _). apply H. reflexivity.
  - destruct (proj2 (get_security_color_cases
                       (dep_with {[ "id" := "NOT-CHECKED" ]} [])) _ _ eq_refl)
      as (_ & H & _). apply H. reflexivity.
  - destruct (proj2 (get_security_color_cases
                       (dep_with {[ "id" := "CHECK-ERROR" ]} [])) _ _ eq_refl)
      as (_ & _ & H & _). apply H. reflexivity.
  - destruct (proj2 (get_security_color_cases
                       (dep_with {[ "id" := "CVE-2023-1234" ]} [])) _ _ eq_refl)
      as (_ & _ & _ & H). apply H; vm_compute; discriminate.
Defined.

Lemma get_security_color_first_only_witness :
  get_security_color (named_dep "a")
  = get_security_color
      (dep_with {[ "id" := "SAFE" ]} [ {[ "id" := "CVE-2023-1234" ]} ]).
Proof.
  apply (get_security_color_first_only _ _ {[ "id" := "SAFE" ]}
           [] [ {[ "id" := "CVE-2023-1234" ]} ]); reflexivity.
Defined.

Lemma get_security_color_missing_id_witness :
  get_security_color (dep_with {[ "summary" := "no id here" ]} []) = "#FF6347".
Proof.
  apply (get_security_color_missing_id
           (dep_with {[ "summary" := "no id here" ]} [])
           {[ "summary" := "no id here" ]} []); reflexivity.
Defined.

(** C3, as stated, fails on two dependencies of one name: both are
    retained, and the statements written for them declare a single node. *)
Lemma same_name_one_node :
  retainedCount default_config dup_doc = 2 ∧
  size (non_root_nodes (built_graph default_config dup_doc)) = 1 ∧
  size (non_root_nodes (built_graph default_config dup_doc))
    ≠ retainedCount default_config dup_doc.
Proof. vm_compute. repeat split. discriminate. Qed.

Lemma graph_counts_witness :
  retainedCount default_config mixed_doc = 2 ∧
  node_names (body (built_graph default_config mixed_doc)) = ["ROOT"; "a"; "b"] ∧
  length (edges (body (built_graph default_config mixed_doc))) = 2 ∧
  size (non_root_nodes (built_graph default_config mixed_doc)) = 2.
Proof.
  destruct (graph_counts default_config mixed_doc) as (Hn & _ & He & _ & Hs).
  split; [reflexivity|]. split; [exact Hn|]. split; [exact He|].
  apply Hs.
  - vm_compute. apply NoDup_cons. split.
    + intros H. apply list_elem_of_singleton in H. discriminate H.
    + apply NoDup_singleton.
  - vm_compute. intros H. apply elem_of_cons in H as [H|H]; [discriminate H|].
    apply list_elem_of_singleton in H. discriminate H.
  - vm_compute. repeat constructor.
Defined.

Lemma missing_fields_default_witness :
  Node "ROOT" "Project" [("shape", "doubleoctagon"); ("fillcolor", "lightblue")]
    ∈ body (built_graph default_config bare_doc) ∧
  ∃ n v t,
    Node n (n ++ nl ++ v ++ nl ++ "(" ++ t ++ ")") [("fillcolor", "lightgrey")]
      ∈ body (built_graph default_config bare_doc) ∧
    n = "unknown" ∧ t = "unknown" ∧ v = "?".
Proof.
  destruct (missing_fields_default default_config bare_doc) as [Hroot Hdep].
  split.
  - destruct Hroot as (label & Hin & Hnone & _).
    destruct (Hnone eq_refl) as [-> _]. exact Hin.
  - destruct (Hdep bare_dep) as [Hskip Hnode]; [apply list_elem_of_here|].
    destruct (Hnode (Hskip eq_refl)) as (n & v & t & Hin & _ & Hn & Ht & Hv & _).
    exists n, v, t. split; [exact Hin|].
    split; [exact (Hn eq_refl)|]. split; [exact (Ht eq_refl)|exact (Hv eq_refl)].
Defined.

Lemma engine_switch_witness :
  Print MsgSwitchEngine
    ∈ trace (visualize default_config ok_env "depdiscover.json"
               (start (disk_with big_doc))).2 ∧
  rendered (trace (visualize default_config ok_env "depdiscover.json"
                     (start (disk_with mixed_doc))).2)
  = Some (built_graph default_config mixed_doc).
Proof.
  split.
  - apply (engine_switch default_config ok_env "depdiscover.json"
             (disk_with big_doc) big_doc); [reflexivity | reflexivity |].
    split; [vm_compute; lia | reflexivity].
  - apply (engine_switch default_config ok_env "depdiscover.json"
             (disk_with mixed_doc) mixed_doc); [reflexivity | reflexivity |].
    vm_compute. intros [H _]. lia.
Defined.

Lemma missing_input_halts_witness :
  visualize default_config ok_env "depdiscover.json" (start ∅)
  = (Returned,
     {| fs := ∅;
        trace := [ Print (MsgStart "depdiscover.json");
                   Print (MsgFileNotFound "depdiscover.json") ] |}).
Proof.
  assert (Hf : fs (start ∅) !! "depdiscover.json" = None) by reflexivity.
  destruct (missing_input_halts default_config ok_env "depdiscover.json"
              (start ∅) Hf) as (Hr & _ & Hfs & Ht).
  destruct (visualize _ _ _ _) as [o [f t]]. simpl in *. by subst.
Defined.

Lemma render_failure_keeps_source_witness :
  let r := visualize default_config no_engine_env "depdiscover.json"
             (start (disk_with mixed_doc)) in
  exit_status r.1 = 0 ∧
  fs r.2 !! "dependency_graph.gv"
  = Some (FSource "Dependency Graph"
            (body (built_graph default_config mixed_doc))) ∧
  fs r.2 !! "dependency_graph.png" = None.
Proof.
  intros r.
  destruct (render_failure_keeps_source default_config no_engine_env
              "depdiscover.json" (start (disk_with mixed_doc)) mixed_doc
              ExecutableNotFound eq_refl eq_refl eq_refl)
    as (_ & Hx & Hsrc & Hframe & _).
  split; [exact Hx|]. split; [exact Hsrc|].
  fold r in Hframe. rewrite Hframe; [reflexivity | discriminate | discriminate].
Defined.

Lemma render_gets_saved_content_witness :
  let t := trace (visualize default_config ok_env "depdiscover.json"
                    (start (disk_with big_doc))).2 in
  saved t = Some (built_graph default_config big_doc) ∧
  ∃ g', rendered t = Some g' ∧
        body g' = body (built_graph default_config big_doc) ∧
        engine g' = "sfdp".
Proof.
  intros t.
  destruct (render_gets_saved_content default_config ok_env "depdiscover.json"
              (disk_with big_doc) big_doc eq_refl eq_refl)
    as (Hs & g' & Hr & _ & Hb & Hiff & He).
  split; [exact Hs|]. exists g'. split; [exact Hr|]. split; [exact Hb|].
  apply He, Hiff. split; [vm_compute; lia | reflexivity].
Defined.

(** * Further properties of the code *)

(** ** Colours *)

Section Colours.

Implicit Types (dep : Dep).

Lemma color_by_first_id dep :
  get_security_color dep
  = match first_id dep with
    | None => "lightgrey"
    | Some i => color_of_id i
    end.
Proof.
  unfold get_security_color, first_id. by destruct (default [] (cves dep)).
Qed.

(** X1: [get_security_color] only ever returns one of its four colours. *)
Theorem get_security_color_range dep :
  get_security_color dep ∈ ["#90EE90"; "lightgrey"; "#FFE4B5"; "#FF6347"].
Proof.
  rewrite color_by_first_id. destruct (first_id dep) as [i|].
  - unfold color_of_id.
    destruct (String.eqb i "SAFE"); [apply list_elem_of_here|].
    destruct (String.eqb i "NOT-CHECKED");
      [apply list_elem_of_further, list_elem_of_here|].
    destruct (String.eqb i "CHECK-ERROR").
    + do 2 apply list_elem_of_further. apply list_elem_of_here.
    + do 3 apply list_elem_of_further. apply list_elem_of_here.
  - apply list_elem_of_further, list_elem_of_here.
Qed.

(** X2: each colour tells what was read: green only for a first id
    ["SAFE"], yellow only for ["CHECK-ERROR"], red only for a first finding
    whose id is none of the three sentinels, and grey only for an empty or
    absent list or a first id ["NOT-CHECKED"]. *)
Theorem get_security_color_inverse dep :
  (get_security_color dep = "#90EE90" ↔ first_id dep = Some "SAFE") ∧
  (get_security_color dep = "#FFE4B5" ↔ first_id dep = Some "CHECK-ERROR") ∧
  (get_security_color dep = "lightgrey" ↔
     first_id dep = None ∨ first_id dep = Some "NOT-CHECKED") ∧
  (get_security_color dep = "#FF6347" ↔
     ∃ i, first_id dep = Some i ∧
          i ≠ "SAFE" ∧ i ≠ "NOT-CHECKED" ∧ i ≠ "CHECK-ERROR").
Proof.
  rewrite color_by_first_id. destruct (first_id dep) as [i|].
  - unfold color_of_id.
    destruct (String.eqb_spec i "SAFE") as [->|H1].
    { repeat split; try done.
      - by intros [|[=]].
      - by intros (j & [= <-] & ? & _). }
    destruct (String.eqb_spec i "NOT-CHECKED") as [->|H2].
    { repeat split; try done.
      - by right.
      - by intros (j & [= <-] & _ & ? & _). }
    destruct (String.eqb_spec i "CHECK-ERROR") as [->|H3].
    { repeat split; try done.
      - by intros [|[=]].
      - by intros (j & [= <-] & _ & _ & ?). }
    repeat split; try done.
    + intros [= ->]. done.
    + intros [= ->]. done.
    + intros [|[= ->]]; done.
    + intros _. by exists i.
  - repeat split; try done.
    + by left.
    + by intros (j & ? & _).
Qed.

End Colours.

(** ** More on the build pass *)

Section MoreBuildFacts.

Variable cfg : Config.

Implicit Types (dep : Dep) (deps : list Dep) (data : Document).

Lemma is_skipped_system dep :
  SKIP_SYSTEM_LIBS cfg = true →
  is_skipped cfg dep = true ↔ type dep = Some "system".
Proof.
  intros Hk. rewrite is_skipped_true. split.
  - intros [_ H]. destruct (type dep) as [t|]; simpl in H; [by subst|done].
  - by intros ->.
Qed.

Lemma filter_all (P : Dep → Prop) `{∀ x, Decision (P x)} deps :
  (∀ dep, P dep) → filter P deps = deps.
Proof.
  intros HP. induction deps as [|dep deps IH]; [done|].
  rewrite filter_cons_True by done. by f_equal.
Qed.

Lemma filter_none (P : Dep → Prop) `{∀ x, Decision (P x)} deps :
  (∀ dep, ¬ P dep) → filter P deps = [].
Proof.
  intros HP. induction deps as [|dep deps IH]; [done|].
  by rewrite filter_cons_False.
Qed.

(** X3: with [SKIP_SYSTEM_LIBS] unset nothing is skipped, whatever the
    types: every dependency is counted and gets its node, in input order. *)
Theorem nothing_skipped_when_flag_unset data :
  SKIP_SYSTEM_LIBS cfg = false →
  skippedCount cfg data = 0 ∧
  retainedCount cfg data = length (default [] (dependencies data)) ∧
  node_names (body (built_graph cfg data))
  = "ROOT" :: map node_name (default [] (dependencies data)).
Proof.
  intros Hk.
  assert (Hs : ∀ dep, is_skipped cfg dep = false).
  { intros dep. unfold is_skipped. by rewrite Hk. }
  rewrite skippedCount_eq, retainedCount_eq, node_names_built.
  unfold skipped_deps, retained.
  rewrite (filter_all (λ dep, is_skipped cfg dep = false)) by done.
  rewrite (filter_none (λ dep, is_skipped cfg dep = true))
    by (intros dep; rewrite Hs; done).
  done.
Qed.

(** X4: with [SKIP_SYSTEM_LIBS] set, the dependencies skipped are exactly
    those whose [type] key is present and equal to ["system"]: they are
    what [skipped] counts, and no retained dependency has that type. *)
Theorem skipped_are_system_libs data :
  SKIP_SYSTEM_LIBS cfg = true →
  skippedCount cfg data
  = length (filter (λ dep, type dep = Some "system")
              (default [] (dependencies data))) ∧
  (∀ dep, dep ∈ retained cfg data ↔
          dep ∈ default [] (dependencies data) ∧ type dep ≠ Some "system").
Proof.
  intros Hk. split.
  - rewrite skippedCount_eq. unfold skipped_deps. f_equal.
    apply list_filter_iff. intros dep. by apply is_skipped_system.
  - intros dep. unfold retained. rewrite list_elem_of_filter.
    rewrite <- (is_skipped_system dep Hk).
    destruct (is_skipped cfg dep); split; try tauto.
    + intros [[=] _].
    + intros [_ ?]. done.
Qed.

(** X5: the pass is incremental: the statements and counts for a list
    extended at its end are those for the list, followed by the statements
    and counts of the added dependencies. *)
Theorem build_app pn deps1 deps2 :
  body (built_graph cfg (doc_of pn (deps1 ++ deps2)))
  = (body (built_graph cfg (doc_of pn deps1))
     ++ flat_map dep_stmts (retained cfg (doc_of pn deps2)))%list ∧
  retainedCount cfg (doc_of pn (deps1 ++ deps2))
  = retainedCount cfg (doc_of pn deps1) + retainedCount cfg (doc_of pn deps2) ∧
  skippedCount cfg (doc_of pn (deps1 ++ deps2))
  = skippedCount cfg (doc_of pn deps1) + skippedCount cfg (doc_of pn deps2).
Proof.
  rewrite !built_graph_eq, !retainedCount_eq, !skippedCount_eq.
  unfold retained, skipped_deps, extend.
  cbn [body dependencies doc_of default from_option id].
  rewrite !filter_app, flat_map_app, !length_app.
  split; [|done]. unfold init_graph. cbn [project_name].
  by rewrite app_assoc.
Qed.

Lemma ep_node_quote_edge (s : string) :
  ep_node (quote_edge s) = (partition_colon s).1.
Proof.
  unfold quote_edge. destruct (partition_colon s) as [node rest].
  destruct rest; [done|]. by destruct (partition_colon _).
Qed.

(** X6: every edge leaves ["ROOT"] and arrives at the node named by the
    dependency's name up to its first [':']; when no retained name has a
    [':'], the heads are, in order, exactly the nodes declared after the
    root, so that no edge dangles. *)
Theorem edge_heads_are_declared data :
  (edges (body (built_graph cfg data))).*1
  = replicate (retainedCount cfg data) "ROOT" ∧
  (edges (body (built_graph cfg data))).*2
  = map (λ dep, (partition_colon (node_name dep)).1) (retained cfg data) ∧
  (Forall (λ dep, no_colon (node_name dep) = true) (retained cfg data) →
   node_names (body (built_graph cfg data))
   = "ROOT" :: (edges (body (built_graph cfg data))).*2).
Proof.
  rewrite node_names_built, edges_built, retainedCount_eq.
  rewrite edge_tails, edge_heads.
  split; [done|]. split.
  - apply map_ext. intros dep. apply ep_node_quote_edge.
  - intros Hc. f_equal.
    induction Hc as [|dep deps Hd _ IH]; [done|].
    cbn [map]. by rewrite IH, head_node_no_colon.
Qed.

End MoreBuildFacts.

(** X7: the build pass reads only [SKIP_SYSTEM_LIBS] of the configuration:
    [ENGINE] and [OUTPUT_FORMAT] change neither the graph nor the counts. *)
Theorem build_ignores_engine_and_format cfg1 cfg2 data :
  SKIP_SYSTEM_LIBS cfg1 = SKIP_SYSTEM_LIBS cfg2 →
  build cfg1 data = build cfg2 data.
Proof.
  intros Hk. rewrite !build_eq. unfold retained, skipped_deps, is_skipped.
  by rewrite Hk.
Qed.

(** ** More on the runs of [visualize] *)

Section MoreRunFacts.

Variable cfg : Config.
Variable env : Env.

Implicit Types (w : World) (data : Document) (f : file).

Lemma visualize_unparsable json_file w f :
  fs w !! json_file = Some f →
  parse f = None →
  visualize cfg env json_file w
  = (Returned,
     print MsgJsonError
       (log (JsonLoad json_file)
          (print MsgLoading (print (MsgStart json_file) w)))).
Proof.
  intros Hf Hn. unfold visualize, path_exists, json_load.
  cbn [fs print log]. rewrite Hf. cbn [negb]. by rewrite Hn.
Qed.

Lemma visualize_bad_shape json_file w in_loop e :
  fs w !! json_file = Some (FJsonBad in_loop e) →
  visualize cfg env json_file w
  = (Raised e,
     (if in_loop then print MsgBuilding else id)
       (print MsgDone
          (log (JsonLoad json_file)
             (print MsgLoading (print (MsgStart json_file) w))))).
Proof.
  intros Hf. unfold visualize, path_exists, json_load.
  cbn [fs print log]. rewrite Hf. cbn [negb parse]. by destruct in_loop.
Qed.


(** The disk after a run whose input loads, by how the two calls end. *)
Lemma run_fs json_file w data :
  fs w !! json_file = Some (FJson data) →
  let g := built_graph cfg data in
  let src := FSource (comment g) (body g) in
  fs (visualize cfg env json_file w).2
  = match save_error env, render_error env with
    | Some _, _ =>
        if save_truncates env
        then <[ "dependency_graph.gv" := FPartial ]> (fs w)
        else fs w
    | None, Some OSError => <[ "dependency_graph.gv" := src ]> (fs w)
    | None, Some _ =>
        <[ "dependency_graph" := src ]>
          (<[ "dependency_graph.gv" := src ]> (fs w))
    | None, None => disk_after cfg data (fs w)
    end.
Proof.
  intros Hf g src. rewrite (visualize_loaded _ _ _ _ data) by done.
  unfold save_and_render, save.
  destruct (save_error env) as [e|]; [by destruct (save_truncates env)|].
  rewrite switch_engine_eq. fold g. unfold render, disk_after, render_engine.
  fold g src. pose proof (engine_built cfg data) as He. fold g in He.
  destruct (switch_cond cfg _), (render_error env) as [[]|]; cbn; try done.
  by rewrite He.
Qed.

(** X8: an input that exists but does not load as JSON ends the run after
    the error line: [visualize] returns, nothing is built, saved or
    rendered, and the disk is as it was. *)
Theorem unparsable_input_halts json_file w f :
  fs w !! json_file = Some f →
  parse f = None →
  let r := visualize cfg env json_file w in
  r.1 = Returned ∧
  fs r.2 = fs w ∧
  trace r.2 = (trace w ++ [ Print (MsgStart json_file); Print MsgLoading;
                            JsonLoad json_file; Print MsgJsonError ])%list.
Proof.
  intros Hf Hn r. subst r. rewrite (visualize_unparsable _ _ f) by done.
  cbn. by rewrite <- !app_assoc.
Qed.

(** X9: a failure of [dot.save] is not caught: the exception leaves
    [visualize] (exit status 1) right after the save was tried, and
    [render] is never called.  No file but [dependency_graph.gv] is
    touched: it is left empty or partial when the failure came after the
    file was opened, and as it was otherwise. *)
Theorem save_failure_raises json_file w data e :
  fs w !! json_file = Some (FJson data) →
  save_error env = Some e →
  let r := visualize cfg env json_file w in
  r.1 = Raised e ∧ exit_status r.1 = 1 ∧
  fs r.2 = (if save_truncates env
            then <[ "dependency_graph.gv" := FPartial ]> (fs w)
            else fs w) ∧
  trace r.2
  = (trace w ++
     [ Print (MsgStart json_file); Print MsgLoading; JsonLoad json_file;
       Print MsgDone; Print MsgBuilding;
       Print (MsgBuilt (retainedCount cfg data) (skippedCount cfg data));
       Print (MsgSaving "dependency_graph");
       Save (built_graph cfg data) "dependency_graph.gv" ])%list.
Proof.
  intros Hf Hs r. subst r. rewrite (visualize_loaded _ _ _ _ data) by done.
  unfold save_and_render, save. rewrite Hs.
  destruct (save_truncates env); cbn; by rewrite <- !app_assoc.
Qed.

(** X10: when nothing fails, [visualize] returns after the success lines;
    the image file holds the graph's statements laid out by ["sfdp"] if
    the engine was switched and by ["dot"] otherwise, and the source file
    holds the serialized graph unless the output format is ["gv"], in
    which case the image has taken its place. *)
Theorem successful_run json_file w data :
  fs w !! json_file = Some (FJson data) →
  save_error env = None →
  render_error env = None →
  let g := built_graph cfg data in
  let r := visualize cfg env json_file w in
  r.1 = Returned ∧
  fs r.2 !! image_path cfg
  = Some (FImage (render_engine cfg (retainedCount cfg data))
            (OUTPUT_FORMAT cfg) (body g)) ∧
  (OUTPUT_FORMAT cfg ≠ "gv" →
   fs r.2 !! "dependency_graph.gv" = Some (FSource (comment g) (body g))) ∧
  last (trace r.2)
  = Some (Print (MsgRendered "dependency_graph" (OUTPUT_FORMAT cfg))).
Proof.
  intros Hf Hs Hr g r. split; [|split; [|split]].
  - subst r. rewrite (visualize_loaded _ _ _ _ data) by done.
    unfold save_and_render, save. rewrite Hs, switch_engine_eq.
    unfold render. rewrite Hr. by destruct (switch_cond cfg _).
  - subst r. rewrite (run_fs _ _ data), Hs, Hr by done.
    unfold disk_after. by rewrite lookup_insert_eq.
  - intros Hfmt. subst r. rewrite (run_fs _ _ data), Hs, Hr by done.
    unfold disk_after, image_path.
    rewrite lookup_insert_ne.
    + rewrite lookup_insert_ne by done. by rewrite lookup_insert_eq.
    + cbn. intros [= H]. by destruct Hfmt.
  - subst r. rewrite (visualize_loaded _ _ _ _ data) by done.
    unfold save_and_render, save. rewrite Hs, switch_engine_eq.
    unfold render. rewrite Hr.
    destruct (switch_cond cfg _); cbn; by rewrite last_snoc.
Qed.

(** X11: whatever the input and however the calls end, a run writes to no
    path but the source file, the copy [render] makes of it and the image,
    and it removes no file. *)
Theorem visualize_frame json_file w :
  let r := visualize cfg env json_file w in
  (∀ p, p ≠ "dependency_graph.gv" → p ≠ "dependency_graph" →
        p ≠ image_path cfg → fs r.2 !! p = fs w !! p) ∧
  (∀ p, is_Some (fs w !! p) → is_Some (fs r.2 !! p)).
Proof.
  intros r. subst r.
  destruct (fs w !! json_file) as [f|] eqn:Hf.
  - destruct f as [data|in_loop e| | | |].
    + rewrite (run_fs _ _ data) by done. unfold disk_after.
      split.
      * intros p H1 H2 H3.
        destruct (save_error env), (save_truncates env),
          (render_error env) as [[]|];
          by rewrite ?lookup_insert_ne.
      * intros p Hp.
        destruct (save_error env), (save_truncates env),
          (render_error env) as [[]|];
          rewrite ?lookup_insert; repeat case_decide; done.
    + rewrite (visualize_bad_shape _ _ _ _ Hf). by destruct in_loop.
    + by rewrite (visualize_unparsable _ _ _ Hf).
    + by rewrite (visualize_unparsable _ _ _ Hf).
    + by rewrite (visualize_unparsable _ _ _ Hf).
    + by rewrite (visualize_unparsable _ _ _ Hf).
  - by rewrite visualize_missing.
Qed.

End MoreRunFacts.

Section RunComposition.

Variable cfg : Config.
Variable env : Env.

Implicit Types (w : World) (data : Document).

Lemma disk_after_idem data (m : gmap string file) :
  disk_after cfg data (disk_after cfg data m) = disk_after cfg data m.
Proof.
  unfold disk_after. apply map_eq. intros p.
  rewrite !lookup_insert. by repeat case_decide.
Qed.

Lemma disk_after_other data (m : gmap string file) p :
  p ≠ "dependency_graph.gv" → p ≠ "dependency_graph" → p ≠ image_path cfg →
  disk_after cfg data m !! p = m !! p.
Proof. intros H1 H2 H3. unfold disk_after. by rewrite !lookup_insert_ne. Qed.

(** X12: a configured [ENGINE] other than ["dot"] is never handed to
    graphviz: the graph is still rendered with the library's ["dot"]. *)
Theorem configured_engine_ignored json_file (fs0 : gmap string file) data :
  ENGINE cfg ≠ "dot" →
  fs0 !! json_file = Some (FJson data) →
  save_error env = None →
  let t := trace (visualize cfg env json_file (start fs0)).2 in
  rendered t = Some (built_graph cfg data) ∧
  engine (built_graph cfg data) = "dot" ∧
  Print MsgSwitchEngine ∉ t.
Proof.
  intros He Hf Hs t. subst t.
  assert (Hc : switch_cond cfg (retainedCount cfg data) = false).
  { unfold switch_cond. apply String.eqb_neq in He. rewrite He.
    apply andb_false_r. }
  rewrite (run_rendered _ _ _ _ data), (run_switch_msg _ _ _ _ data) by done.
  rewrite Hc. split; [done|]. split; [apply engine_built | done].
Qed.

(** X13: running the script again on the disk it left changes nothing,
    provided the input is not one of its own output files. *)
Theorem rerun_same_disk json_file (fs0 : gmap string file) data :
  fs0 !! json_file = Some (FJson data) →
  save_error env = None →
  render_error env = None →
  json_file ≠ "dependency_graph.gv" →
  json_file ≠ "dependency_graph" →
  json_file ≠ image_path cfg →
  let fs1 := fs (visualize cfg env json_file (start fs0)).2 in
  fs (visualize cfg env json_file (start fs1)).2 = fs1.
Proof.
  intros Hf Hs Hr H1 H2 H3 fs1.
  assert (E1 : fs1 = disk_after cfg data fs0).
  { subst fs1. by rewrite (run_fs _ _ _ _ data), Hs, Hr. }
  rewrite E1. rewrite (run_fs _ _ _ _ data), Hs, Hr.
  - apply disk_after_idem.
  - cbn [fs start]. by rewrite disk_after_other.
Qed.


(** X15: [render] is called only after the input has loaded and the source
    has been saved: a trace with a [Render] has the [Save] of the graph
    built from the document. *)
Theorem render_only_after_save json_file (fs0 : gmap string file) :
  let t := trace (visualize cfg env json_file (start fs0)).2 in
  is_Some (rendered t) →
  ∃ data, fs0 !! json_file = Some (FJson data) ∧
          save_error env = None ∧
          saved t = Some (built_graph cfg data).
Proof.
  intros t. subst t.
  destruct (fs0 !! json_file) as [f|] eqn:Hf.
  - destruct f as [data|in_loop e| | | |].
    + destruct (save_error env) as [e|] eqn:Hs.
      * rewrite (visualize_loaded _ _ _ _ data) by done.
        unfold save_and_render, save. rewrite Hs.
        destruct (save_truncates env); cbn; by intros [? [=]].
      * intros _. exists data. split; [done|]. split; [done|].
        by apply run_saved.
    + rewrite (visualize_bad_shape _ _ _ (start fs0) _ _ Hf).
      destruct in_loop; cbn; by intros [? [=]].
    + rewrite (visualize_unparsable _ _ _ (start fs0) _ Hf) by done.
      cbn. by intros [? [=]].
    + rewrite (visualize_unparsable _ _ _ (start fs0) _ Hf) by done.
      cbn. by intros [? [=]].
    + rewrite (visualize_unparsable _ _ _ (start fs0) _ Hf) by done.
      cbn. by intros [? [=]].
    + rewrite (visualize_unparsable _ _ _ (start fs0) _ Hf) by done.
      cbn. by intros [? [=]].
  - rewrite visualize_missing by done. cbn. by intros [? [=]].
Qed.

(** X16: a document with an empty or absent dependency list is still saved
    and rendered: the graph is the header and the root node alone, both
    counters are 0 and the engine is never switched. *)
Theorem empty_document_run json_file (fs0 : gmap string file) data :
  default [] (dependencies data) = [] →
  fs0 !! json_file = Some (FJson data) →
  save_error env = None →
  let t := trace (visualize cfg env json_file (start fs0)).2 in
  saved t = Some (init_graph data) ∧
  rendered t = Some (init_graph data) ∧
  Print (MsgBuilt 0 0) ∈ t ∧
  node_names (body (init_graph data)) = ["ROOT"] ∧
  edges (body (init_graph data)) = [].
Proof.
  intros Hd Hf Hs t. subst t.
  assert (Hb : build cfg data = (init_graph data, 0, 0)).
  { unfold build. by rewrite Hd. }
  assert (Hg : built_graph cfg data = init_graph data).
  { unfold built_graph. by rewrite Hb. }
  assert (Hc : retainedCount cfg data = 0).
  { unfold retainedCount. by rewrite Hb. }
  assert (Hk : skippedCount cfg data = 0).
  { unfold skippedCount. by rewrite Hb. }
  split; [|split; [|split]].
  - by rewrite (run_saved _ _ _ _ data), Hg.
  - rewrite (run_rendered _ _ _ _ data), Hc, Hg by done.
    unfold switch_cond. done.
  - rewrite (run_trace _ _ _ _ data), Hc, Hk by done.
    do 5 apply list_elem_of_further. apply list_elem_of_here.
  - done.
Qed.

End RunComposition.

(** ** Concrete inputs for the further properties *)

Lemma nothing_skipped_when_flag_unset_witness :
  skippedCount keep_all_config mixed_doc = 0 ∧
  retainedCount keep_all_config mixed_doc = 3 ∧
  node_names (body (built_graph keep_all_config mixed_doc))
  = ["ROOT"; "a"; "libc"; "b"].
Proof.
  exact (nothing_skipped_when_flag_unset keep_all_config mixed_doc eq_refl).
Defined.

Lemma skipped_are_system_libs_witness :
  skippedCount default_config mixed_doc = 1 ∧
  named_dep "b" ∈ retained default_config mixed_doc.
Proof.
  destruct (skipped_are_system_libs default_config mixed_doc eq_refl)
    as [Hn Hr].
  split; [exact Hn|]. apply Hr. split.
  - do 2 apply list_elem_of_further. apply list_elem_of_here.
  - discriminate.
Defined.

Lemma build_ignores_engine_and_format_witness :
  build default_config mixed_doc = build neato_config mixed_doc.
Proof.
  exact (build_ignores_engine_and_format default_config neato_config
           mixed_doc eq_refl).
Defined.

Lemma unparsable_input_halts_witness :
  let r := visualize default_config ok_env "depdiscover.json"
             (start broken_disk) in
  r.1 = Returned ∧ fs r.2 = broken_disk.
Proof.
  intros r.
  destruct (unparsable_input_halts default_config ok_env "depdiscover.json"
              (start broken_disk) FOther eq_refl eq_refl)
    as (Hr & Hfs & _).
  split; [exact Hr | exact Hfs].
Defined.

Lemma save_failure_raises_witness :
  let r := visualize default_config disk_full_env "depdiscover.json"
             (start (disk_with mixed_doc)) in
  r.1 = Raised OSError ∧ exit_status r.1 = 1 ∧
  fs r.2 = <[ "dependency_graph.gv" := FPartial ]> (disk_with mixed_doc).
Proof.
  intros r.
  destruct (save_failure_raises default_config disk_full_env
              "depdiscover.json" (start (disk_with mixed_doc)) mixed_doc
              OSError eq_refl eq_refl)
    as (Hr & Hx & Hfs & _).
  split; [exact Hr|]. split; [exact Hx | exact Hfs].
Defined.

Lemma edge_heads_are_declared_witness :
  node_names (body (built_graph default_config mixed_doc))
  = "ROOT" :: (edges (body (built_graph default_config mixed_doc))).*2 ∧
  (edges (body (built_graph default_config port_doc))).*2 = ["x"].
Proof.
  split.
  - apply (edge_heads_are_declared default_config mixed_doc).
    vm_compute. repeat constructor.
  - exact (proj1 (proj2 (edge_heads_are_declared default_config port_doc))).
Defined.

Lemma successful_run_witness :
  let r := visualize default_config ok_env "depdiscover.json"
             (start (disk_with mixed_doc)) in
  fs r.2 !! "dependency_graph.png"
  = Some (FImage "dot" "png" (body (built_graph default_config mixed_doc))) ∧
  fs r.2 !! "dependency_graph.gv"
  = Some (FSource "Dependency Graph"
            (body (built_graph default_config mixed_doc))).
Proof.
  intros r.
  destruct (successful_run default_config ok_env "depdiscover.json"
              (start (disk_with mixed_doc)) mixed_doc eq_refl eq_refl eq_refl)
    as (_ & Hi & Hs & _).
  split; [exact Hi|]. apply Hs. discriminate.
Defined.

Lemma visualize_frame_witness :
  fs (visualize default_config ok_env "depdiscover.json"
        (start (disk_with mixed_doc))).2 !! "depdiscover.json"
  = Some (FJson mixed_doc).
Proof.
  destruct (visualize_frame default_config ok_env "depdiscover.json"
              (start (disk_with mixed_doc))) as [Hframe _].
  rewrite Hframe; [reflexivity | discriminate | discriminate | discriminate].
Defined.

Lemma configured_engine_ignored_witness :
  rendered (trace (visualize neato_config ok_env "depdiscover.json"
                     (start (disk_with big_doc))).2)
  = Some (built_graph neato_config big_doc) ∧
  engine (built_graph neato_config big_doc) = "dot".
Proof.
  assert (He : ENGINE neato_config ≠ "dot") by discriminate.
  destruct (configured_engine_ignored neato_config ok_env "depdiscover.json"
              (disk_with big_doc) big_doc He eq_refl eq_refl)
    as (Hr & Hd & _).
  split; [exact Hr | exact Hd].
Defined.

Lemma rerun_same_disk_witness :
  let fs1 := fs (visualize default_config ok_env "depdiscover.json"
                   (start (disk_with mixed_doc))).2 in
  fs (visualize default_config ok_env "depdiscover.json" (start fs1)).2 = fs1.
Proof.
  assert (H1 : "depdiscover.json" ≠ "dependency_graph.gv") by discriminate.
  assert (H2 : "depdiscover.json" ≠ "dependency_graph") by discriminate.
  assert (H3 : "depdiscover.json" ≠ image_path default_config)
    by discriminate.
  exact (rerun_same_disk default_config ok_env "depdiscover.json"
           (disk_with mixed_doc) mixed_doc eq_refl eq_refl eq_refl H1 H2 H3).
Defined.

Lemma render_only_after_save_witness :
  ∃ data, disk_with mixed_doc !! "depdiscover.json" = Some (FJson data) ∧
          save_error no_engine_env = None ∧
          saved (trace (visualize default_config no_engine_env
                          "depdiscover.json"
                          (start (disk_with mixed_doc))).2)
          = Some (built_graph default_config data).
Proof.
  apply (render_only_after_save default_config no_engine_env
           "depdiscover.json" (disk_with mixed_doc)).
  vm_compute. eexists. reflexivity.
Defined.

Lemma empty_document_run_witness :
  let t := trace (visualize default_config ok_env "depdiscover.json"
                    (start (disk_with empty_doc))).2 in
  saved t = Some (init_graph empty_doc) ∧
  rendered t = Some (init_graph empty_doc) ∧
  Print (MsgBuilt 0 0) ∈ t.
Proof.
  intros t.
  destruct (empty_document_run default_config ok_env "depdiscover.json"
              (disk_with empty_doc) empty_doc eq_refl eq_refl eq_refl)
    as (Hs & Hr & Hp & _).
  split; [exact Hs|]. split; [exact Hr | exact Hp].
Defined.
